(** * TON Trivia Battle: the Flask backend (backend/app.py)

    A shallow embedding of the three request handlers of [backend/app.py]
    ([get_questions], [receive_result], [get_leaderboard]) with the score
    file they read and write, and the properties the specification states
    about them.

    Conventions.
    - A value decoded from JSON is a [pyval]; Python's [int] is [Z], its
      [float] is the kernel's binary64 [float], a [str] is a [string] (the
      UTF-8 bytes of a well-formed text), a [dict] is an association list
      in insertion order.
    - An exception is a value of [exn]; code that may raise returns
      [result A].  An exception that leaves a handler makes Flask answer
      with status 500.
    - The score file and the state of the disk are the [world]; a handler
      takes the world and returns the new one, with the lines it printed.
      [print] itself is taken to succeed.
    - Line numbers are those of [backend/app.py]. *)

From Stdlib Require Import ZArith String Ascii DecimalString Floats Lia Sorted.
From stdpp Require Import base list strings.

Local Set Warnings "-register-all".
Local Open Scope string_scope.
Local Open Scope Z_scope.
Local Open Scope list_scope.

(** ** Values decoded from JSON *)

Inductive pyval : Type :=
| PNone
| PBool (b : bool)
| PInt (z : Z)
| PFloat (f : float)
| PStr (s : string)
| PList (items : list pyval)
| PDict (fields : list (string * pyval)).

(** [bool(v)]: the truth value Python's [not], [or] and [if] test. *)
Definition truthy (v : pyval) : bool :=
  match v with
  | PNone => false
  | PBool b => b
  | PInt z => negb (z =? 0)
  | PFloat f => negb (PrimFloat.eqb f 0%float)
  | PStr s => negb (String.eqb s "")
  | PList items => match items with [] => false | _ => true end
  | PDict fields => match fields with [] => false | _ => true end
  end.

(** [a or b] *)
Definition py_or (a b : pyval) : pyval := if truthy a then a else b.

(** ** Dicts

    A Python dict keeps its items in insertion order and binds a key
    once.  [dict_get] is [d[k]] (or [k in d], [d.get(k)]), [dict_set] is
    [d[k] = v]: the value of an existing key is replaced in place, a new
    key is appended.  [same] is the equality of keys. *)
Section Dict.
Context {K V : Type} (same : K -> K -> bool).

Fixpoint dict_get (k : K) (d : list (K * V)) : option V :=
  match d with
  | [] => None
  | (k', v) :: rest => if same k k' then Some v else dict_get k rest
  end.

Fixpoint dict_set (k : K) (v : V) (d : list (K * V)) : list (K * V) :=
  match d with
  | [] => [(k, v)]
  | (k', v') :: rest =>
      if same k k' then (k', v) :: rest else (k', v') :: dict_set k v rest
  end.

Definition dict_mem (k : K) (d : list (K * V)) : bool :=
  match dict_get k d with Some _ => true | None => false end.

End Dict.

(** Lookup in a dict decoded from JSON: its keys are strings. *)
Definition assoc {A : Type} (k : string) (d : list (string * A)) : option A :=
  dict_get String.eqb k d.

(** ** Exceptions *)

Inductive exn : Type :=
| AttributeError | TypeError | ValueError | OverflowError
| KeyError | IndexError | OSError.

Definition result (A : Type) : Type := exn + A.
Definition ok {A : Type} (a : A) : result A := inr a.
Definition raise {A : Type} (e : exn) : result A := inl e.
Definition bind {A B : Type} (m : result A) (k : A -> result B) : result B :=
  match m with inl e => inl e | inr a => k a end.

Notation "'let*' x ':=' m 'in' k" := (bind m (fun x => k))
  (at level 10, x name, m at level 100, k at level 200).

(** [v.get(k, dflt)]: only a dict has the method. *)
Definition py_get (v : pyval) (k : string) (dflt : pyval) : result pyval :=
  match v with
  | PDict fields => ok (default dflt (assoc k fields))
  | _ => raise AttributeError
  end.

(** ** Numeric conversions *)

(** [int(f)] for a float: truncation toward zero; [nan] and the
    infinities raise. *)
Definition int_of_float (f : float) : result Z :=
  match Prim2SF f with
  | S754_zero _ => ok 0
  | S754_finite s m e =>
      let a := if 0 <=? e then Z.pos m * 2 ^ e else Z.pos m / 2 ^ (- e) in
      ok (if s then - a else a)
  | S754_infinity _ => raise OverflowError
  | S754_nan => raise ValueError
  end.

(** [float(z)] for an int: the nearest binary64 value, ties to even; an
    int that rounds beyond the largest finite float raises. *)
Definition float_of_int (z : Z) : result float :=
  let f := SF2Prim (binary_normalize prec emax z 0 false) in
  if is_infinity f then raise OverflowError else ok f.

(** ** Question service (GET /questions) *)

Record question : Type := Question {
  q_question : string;
  q_options : list string;
  q_correctIndex : Z
}.

Definition general_questions : list question := [
  Question "What is the capital city of France?"
    ["Berlin"; "Madrid"; "Paris"; "Rome"] 2;
  Question "Which planet is known as the Red Planet?"
    ["Earth"; "Mars"; "Venus"; "Jupiter"] 1;
  Question "Who wrote the play 'Romeo and Juliet'?"
    ["William Shakespeare"; "Jane Austen"; "Mark Twain"; "Charles Dickens"] 0;
  Question "How many continents are there on Earth?"
    ["Five"; "Six"; "Seven"; "Eight"] 2;
  Question "What gas do plants absorb from the atmosphere?"
    ["Oxygen"; "Nitrogen"; "Carbon Dioxide"; "Hydrogen"] 2
].

Definition football_questions : list question := [
  Question "Which country won the FIFA World Cup in 2018?"
    ["Brazil"; "France"; "Germany"; "Argentina"] 1;
  Question "Who is known as 'El Pibe de Oro' in football?"
    ["Lionel Messi"; "Diego Maradona"; "Cristiano Ronaldo"; "Pelé"] 1;
  Question "Which club does Mohamed Salah play for (as of 2024)?"
    ["Liverpool"; "Real Madrid"; "Chelsea"; "Paris Saint-Germain"] 0;
  Question "How long is a standard football match (excluding injury time)?"
    ["80 minutes"; "90 minutes"; "100 minutes"; "120 minutes"] 1;
  Question "Which country has won the most UEFA Champions League titles?"
    ["England"; "Spain"; "Italy"; "Germany"] 1
].

Definition crypto_questions : list question := [
  Question "What was the first cryptocurrency ever created?"
    ["Ethereum"; "Litecoin"; "Bitcoin"; "Dogecoin"] 2;
  Question "Who is credited as the creator of Bitcoin?"
    ["Vitalik Buterin"; "Satoshi Nakamoto"; "Charlie Lee"; "Jed McCaleb"] 1;
  Question "Which blockchain platform introduced smart contracts?"
    ["Bitcoin"; "Ripple"; "Ethereum"; "Cardano"] 2;
  Question "What does NFT stand for?"
    ["New Finance Token"; "Non-Fungible Token"; "Network Fee Transaction"; "Non-Financial Transaction"] 1;
  Question "Which consensus algorithm does Bitcoin use?"
    ["Proof of Stake"; "Proof of Authority"; "Proof of Work"; "Delegated Proof of Stake"] 2
].

Definition CATEGORIES : list (string * list question) :=
  [("general", general_questions);
   ("football", football_questions);
   ("crypto", crypto_questions)].

(** [str.lower()].  The bytes of the letters A to Z are lowered and every
    other byte is kept.  Python lowers by code point; a character outside
    ASCII lowers to text outside ASCII or (the Kelvin sign) to the letter
    k, and no name of [CATEGORIES] has either, so the lookup below finds
    the same pool for both readings. *)
Definition lower_byte (c : ascii) : ascii :=
  let n := nat_of_ascii c in
  if ((65 <=? n) && (n <=? 90))%nat then ascii_of_nat (n + 32) else c.

Fixpoint lower (s : string) : string :=
  match s with
  | EmptyString => EmptyString
  | String c rest => String (lower_byte c) (lower rest)
  end.

(** [random.sample(population, k)] of the Python library (line 174), as
    it runs for a population of at most 21 items: a copy of the
    population is the pool; step [i] draws [j = randbelow(n - i)], takes
    [pool[j]] and moves the last live item [pool[n - i - 1]] into its
    place.  [rnd i] is the random source at step [i], reduced to the
    range of [randbelow]. *)
Fixpoint sample_loop {A : Type} (rnd : nat -> nat) (n : nat) (pool : list A)
    (i k : nat) : result (list A) :=
  match k with
  | O => ok []
  | S k' =>
      let j := (rnd i mod (n - i))%nat in
      match pool !! j, pool !! (n - i - 1)%nat with
      | Some x, Some y =>
          let* rest := sample_loop rnd n (<[j := y]> pool) (S i) k' in
          ok (x :: rest)
      | _, _ => raise IndexError
      end
  end.

Definition sample {A : Type} (rnd : nat -> nat) (population : list A) (k : nat)
  : result (list A) :=
  let n := length population in
  if (n <? k)%nat then raise ValueError
  else sample_loop rnd n population 0 k.

(** Lines 163-175.  [category_arg] is the query parameter, [None] when
    the request has none. *)
Definition get_questions (category_arg : option string) (rnd : nat -> nat)
  : result (list question) :=
  let category := lower (default "general" category_arg) in
  let* general :=
    match assoc "general" CATEGORIES with
    | Some pool => ok pool
    | None => raise KeyError
    end in
  let questions_pool := default general (assoc category CATEGORIES) in
  let n := Nat.min 5 (length questions_pool) in
  sample rnd questions_pool n.

(** ** The score file (SCORES_FILE)

    [load_scores] is declared to return the dict that maps a player's
    identifier to the player's total score, and [save_scores] is the only
    writer of the file: a file that can be read holds such a dict, from
    strings to ints.  [Missing] is a file that cannot be opened,
    [Corrupt] one whose content is not JSON. *)

Inductive file_state : Type :=
| Missing
| Corrupt
| Holds (scores : list (string * Z)).

(** What happens when the file is opened for writing: the write goes
    through, [open] raises, or [open] truncates the file and [json.dump]
    raises before the document is complete. *)
Inductive disk : Type := Writable | OpenFails | DumpFails.

Record world : Type := World { scores_file : file_state; disk_mode : disk }.

(** The [try] body of [load_scores] (lines 56-57): [open], then
    [json.load]. *)
Definition read_scores_file (w : world) : result (list (string * Z)) :=
  match scores_file w with
  | Missing => raise OSError
  | Corrupt => raise ValueError
  | Holds scores => ok scores
  end.

(** Lines 48-59: any exception of the body gives the empty dict. *)
Definition load_scores (w : world) : list (string * Z) :=
  match read_scores_file w with
  | inr scores => scores
  | inl _ => []
  end.

(** The keys a dict can hold among the values decoded from JSON: a list
    or a dict is unhashable. *)
Inductive pykey : Type :=
| KNone
| KBool (b : bool)
| KInt (z : Z)
| KFloat (f : float)
| KStr (s : string).

Definition hash_key (v : pyval) : result pykey :=
  match v with
  | PNone => ok KNone
  | PBool b => ok (KBool b)
  | PInt z => ok (KInt z)
  | PFloat f => ok (KFloat f)
  | PStr s => ok (KStr s)
  | PList _ | PDict _ => raise TypeError
  end.

(** [f == z] for a float and an int: the comparison is exact. *)
Definition float_eq_int (f : float) (z : Z) : bool :=
  match Prim2SF f with
  | S754_zero _ => z =? 0
  | S754_finite s m e =>
      let a := if s then Z.neg m else Z.pos m in
      if 0 <=? e then z =? a * 2 ^ e else a =? z * 2 ^ (- e)
  | S754_infinity _ | S754_nan => false
  end.

(** Equality of two keys of one dict: a string equals only a string,
    [None] only [None], and [bool], [int] and [float] compare as numbers.
    A dict takes a key that is the same object as found before it
    compares; the only float key these handlers use is the one object
    [player_id], so a nan key is found again. *)
Definition key_eqb (a b : pykey) : bool :=
  match a, b with
  | KStr s, KStr t => String.eqb s t
  | KNone, KNone => true
  | KStr _, _ | _, KStr _ | KNone, _ | _, KNone => false
  | KFloat f, KFloat g => PrimFloat.eqb f g || (is_nan f && is_nan g)
  | KFloat f, KInt z | KInt z, KFloat f => float_eq_int f z
  | KFloat f, KBool b | KBool b, KFloat f => float_eq_int f (Z.b2z b)
  | KInt y, KInt z => y =? z
  | KInt z, KBool b | KBool b, KInt z => z =? Z.b2z b
  | KBool b, KBool c => Bool.eqb b c
  end.

(** The dict [load_scores] returns, as a dict in memory: its keys are
    strings, and any key can join them. *)
Definition as_keys (d : list (string * Z)) : list (pykey * Z) :=
  map (fun item : string * Z => (KStr item.1, item.2)) d.

(** ** Leaderboard (GET /leaderboard) *)

Record entry : Type := Entry { player : string; score : Z; rank : Z }.

(** The sort key [lambda x: (-x[1], x[0])] (line 279) and [<] on such
    tuples: ints first, then strings by code point (byte order on UTF-8
    text). *)
Definition sort_key (x : string * Z) : Z * string := (- x.2, x.1).

Definition tuple_ltb (a b : Z * string) : bool :=
  (a.1 <? b.1) || ((a.1 =? b.1) && String.ltb a.2 b.2).

(** [sorted(items, key=sort_key)]: a stable sort, which compares with [<]
    only.  Stable insertion: an item goes before the first one that is
    not smaller than it. *)
Fixpoint insert_sorted (x : string * Z) (l : list (string * Z)) : list (string * Z) :=
  match l with
  | [] => [x]
  | y :: rest =>
      if tuple_ltb (sort_key y) (sort_key x) then y :: insert_sorted x rest
      else x :: y :: rest
  end.

Definition sorted (items : list (string * Z)) : list (string * Z) :=
  foldr insert_sorted [] items.

(** The loop that numbers the rows (lines 281-284), [rank] being its
    counter. *)
Fixpoint rank_rows (rank : Z) (rows : list (string * Z)) : list entry :=
  match rows with
  | [] => []
  | (player, pts) :: rest => Entry player pts rank :: rank_rows (rank + 1) rest
  end.

(** Lines 271-285. *)
Definition get_leaderboard (w : world) : list entry :=
  let scores := load_scores w in
  let sorted_scores := sorted scores in
  rank_rows 1 sorted_scores.

(** ** Settlement (POST /result) *)

(** [COMMISSION_RATE = 0.15]: the binary64 value the literal denotes. *)
Definition COMMISSION_RATE : float := 0x1.3333333333333p-3%float.

Record response : Type := Response {
  status : string;
  winner : string;
  commission : float;
  net_reward : float
}.

(** What a handler answers: status 200 with a JSON document, or status
    500 when an exception leaves it. *)
Inductive http (A : Type) : Type :=
| Ok200 (a : A)
| Err500 (e : exn).
Arguments Ok200 {A} a.
Arguments Err500 {A} e.

(** The lines the handler prints. *)
Inductive log_line : Type :=
| LogReceived (wallet category : pyval)
| LogScore (user_score opp_score : Z) (winner : string)
| LogStake (stake commission net_reward : float)
| LogCommissionDue (commission : float)
| LogUpdateFailed (e : exn).

(** The fields of the request after coercion. *)
Record request : Type := Request {
  req_wallet : pyval;
  req_user_score : Z;
  req_opp_score : Z;
  req_stake : float;
  req_category : pyval
}.

(** Lines 206-211. *)
Definition decide_winner (user_score opp_score : Z) : string :=
  if user_score >? opp_score then "user"
  else if user_score <? opp_score then "opponent"
  else "tie".

(** Lines 214-218.  Commission and net reward: both 0.0 unless there is
    a winner. *)
Definition settle (winner : string) (stake : float) : float * float :=
  if negb (String.eqb winner "tie") then
    let commission := (stake * COMMISSION_RATE)%float in
    (commission, (stake - commission)%float)
  else (0%float, 0%float).

(** ** Python built-ins

    Python's [str(v)], and [int(s)] and [float(s)] on a string, are not
    code of this repository: the development is parametric in them.
    [None] stands for the [ValueError] the two parsers raise. *)
Class Builtins : Type := {
  py_str : pyval -> string;
  int_of_str : string -> option Z;
  float_of_str : string -> option float
}.

Section Handlers.
Context {builtins : Builtins}.

(** [int(v)] *)
Definition py_int (v : pyval) : result Z :=
  match v with
  | PInt z => ok z
  | PBool b => ok (Z.b2z b)
  | PFloat f => int_of_float f
  | PStr s => match int_of_str s with Some z => ok z | None => raise ValueError end
  | PNone | PList _ | PDict _ => raise TypeError
  end.

(** [float(v)] *)
Definition py_float (v : pyval) : result float :=
  match v with
  | PFloat f => ok f
  | PInt z => float_of_int z
  | PBool b => ok (if b then 1%float else 0%float)
  | PStr s => match float_of_str s with Some f => ok f | None => raise ValueError end
  | PNone | PList _ | PDict _ => raise TypeError
  end.

(** Lines 197-203: the body of the request and its coercion.  [body] is
    what [request.get_json(silent=True)] returns: [None] when the request
    carries no JSON document. *)
Definition read_request (body : option pyval) : result request :=
  let data := py_or (default PNone body) (PDict []) in
  let* wallet := py_get data "wallet" PNone in
  let* score := py_get data "score" (PDict []) in
  let* user_raw := py_get score "user" (PInt 0) in
  let* user_score := py_int user_raw in
  let* opp_raw := py_get score "opponent" (PInt 0) in
  let* opp_score := py_int opp_raw in
  let* stake_raw := py_get data "stake" (PFloat 1%float) in
  let* stake := py_float stake_raw in
  let* category := py_get data "category" (PStr "general") in
  ok (Request wallet user_score opp_score stake category).

(** Lines 233-246: the player's identifier.  No operation of the
    source's [try] block raises on a value decoded from JSON, so its
    [except] branch is never taken. *)
Definition derive_player_id (wallet : pyval) : pyval :=
  let player_id := PNone in
  let player_id :=
    match wallet with
    | PDict fields =>
        let player_id :=
          match assoc "account" fields with
          | Some (PDict account) => default PNone (assoc "address" account)
          | _ => player_id
          end in
        if negb (truthy player_id) then
          py_or (default PNone (assoc "address" fields))
                (default PNone (assoc "publicKey" fields))
        else player_id
    | _ => player_id
    end in
  if negb (truthy player_id) then PStr (py_str wallet) else player_id.

(** The name [json.dump] writes for a key of a dict. *)
Definition json_key (k : pykey) : string :=
  match k with
  | KStr s => s
  | KNone => "null"
  | KBool b => if b then "true" else "false"
  | KInt z => py_str (PInt z)
  | KFloat f =>
      if is_nan f then "NaN"
      else if is_infinity f then (if (f <? 0)%float then "-Infinity" else "Infinity")
      else py_str (PFloat f)
  end.

(** The dict [json.load] reads from the document [json.dump] writes for
    [scores]: the items in order, under their JSON names; when a name is
    written twice the later value is the one that is read. *)
Definition json_reload (scores : list (pykey * Z)) : list (string * Z) :=
  fold_left (fun doc item => dict_set String.eqb (json_key item.1) item.2 doc) scores [].

(** Lines 62-65. *)
Definition save_scores (scores : list (pykey * Z)) (w : world) : result unit * world :=
  match disk_mode w with
  | OpenFails => (raise OSError, w)
  | DumpFails => (raise OSError, World Corrupt (disk_mode w))
  | Writable => (ok tt, World (Holds (json_reload scores)) (disk_mode w))
  end.

(** Lines 253-258: the [try] body that updates the leaderboard.  The
    names of the dict [load_scores] returns are strings; [player_id] is
    any value, and [in] raises for one that cannot be a key. *)
Definition update_scores (player_id : pyval) (user_score : Z) (w : world)
  : result unit * world :=
  let scores := as_keys (load_scores w) in
  match hash_key player_id with
  | inl e => (inl e, w)
  | inr key =>
      let scores :=
        if negb (dict_mem key_eqb key scores) then dict_set key_eqb key 0 scores
        else scores in
      match dict_get key_eqb key scores with
      | None => (raise KeyError, w)
      | Some total =>
          let scores := dict_set key_eqb key (total + user_score) scores in
          save_scores scores w
      end
  end.

(** Lines 179-267.  The exceptions of the coercion leave the handler;
    those of the update are caught and printed (lines 259-260). *)
Definition receive_result (body : option pyval) (w : world)
  : http response * world * list log_line :=
  match read_request body with
  | inl e => (Err500 e, w, [])
  | inr req =>
      let wallet := req_wallet req in
      let user_score := req_user_score req in
      let opp_score := req_opp_score req in
      let stake := req_stake req in
      let winner := decide_winner user_score opp_score in
      let '(commission, net_reward) := settle winner stake in
      let log :=
        ([LogReceived wallet (req_category req);
          LogScore user_score opp_score winner;
          LogStake stake commission net_reward]
         ++ (if truthy (PFloat commission) then [LogCommissionDue commission] else []))%list in
      let player_id := derive_player_id wallet in
      let '(updated, w') := update_scores player_id user_score w in
      let log :=
        (log ++ match updated with inl e => [LogUpdateFailed e] | inr _ => [] end)%list in
      (Ok200 (Response "ok" winner commission net_reward), w', log)
  end.

(** *** The identifier in the specification's words

    The candidate fields of a wallet: the address of a nested account
    object, and the two top-level fields. *)
Definition nested_address (wallet : pyval) : option pyval :=
  match wallet with
  | PDict fields =>
      match assoc "account" fields with
      | Some (PDict account) => assoc "address" account
      | _ => None
      end
  | _ => None
  end.

Definition top_field (name : string) (wallet : pyval) : option pyval :=
  match wallet with
  | PDict fields => assoc name fields
  | _ => None
  end.

(** The first candidate that [counts], else the rendering of the wallet. *)
Definition first_candidate (counts : option pyval -> option pyval) (wallet : pyval)
  : pyval :=
  match counts (nested_address wallet) with
  | Some a => a
  | None =>
      match counts (top_field "address" wallet) with
      | Some a => a
      | None =>
          match counts (top_field "publicKey" wallet) with
          | Some p => p
          | None => PStr (py_str wallet)
          end
      end
  end.

(** As the specification states it: a field counts when it is present. *)
Definition spec_player_id (wallet : pyval) : pyval :=
  first_candidate (fun field => field) wallet.

(** A field counts when it is present and its value is truthy. *)
Definition usable (field : option pyval) : option pyval :=
  match field with
  | Some v => if truthy v then Some v else None
  | None => None
  end.

Definition truthy_player_id (wallet : pyval) : pyval :=
  first_candidate usable wallet.

End Handlers.

(** An instance of the built-ins for the statements about concrete
    inputs: [str] of [None], a bool, an int and a string as Python
    renders them.  Floats, lists and dicts are not rendered and no string
    is parsed as a number; no statement below reaches either. *)
Definition plain_str (v : pyval) : string :=
  match v with
  | PNone => "None"
  | PBool b => if b then "True" else "False"
  | PInt z => NilZero.string_of_int (Z.to_int z)
  | PStr s => s
  | PFloat _ | PList _ | PDict _ => ""
  end.

Definition plain_builtins : Builtins :=
  {| py_str := plain_str;
     int_of_str := fun _ => None;
     float_of_str := fun _ => None |}.

(** ** Vocabulary of the statements *)

(** [precedes a b]: row [a] may stand before row [b], that is, its score
    is higher, or the scores are equal and its identifier is not after
    [b]'s. *)
Definition precedes (a b : string * Z) : Prop :=
  b.2 < a.2 \/ (a.2 = b.2 /\ String.leb a.1 b.1 = true).

Definition row_of (e : entry) : string * Z := (player e, score e).

(** The answer to a request that passed the coercion: status 200 with
    the settlement of its scores and stake. *)
Definition outcome (req : request) : response :=
  let winner := decide_winner (req_user_score req) (req_opp_score req) in
  Response "ok" winner (settle winner (req_stake req)).1 (settle winner (req_stake req)).2.


(** [present_truthy field]: the field is missing, or its value is truthy. *)
Definition present_truthy (field : option pyval) : Prop :=
  forall v, field = Some v -> truthy v = true.

(** *** Concrete requests *)

(** A system that has stored nothing yet, on a disk that can be written. *)
Definition fresh : world := World Missing Writable.

Definition wallet_of (address : pyval) : pyval := PDict [("address", address)].

(** The body [{"wallet": wallet, "score": {"user": u, "opponent": o}}]. *)
Definition submission (wallet : pyval) (u o : Z) : option pyval :=
  Some (PDict [("wallet", wallet);
               ("score", PDict [("user", PInt u); ("opponent", PInt o)])]).



(** A wallet whose nested address is the empty string. *)
Definition wallet_empty_nested : pyval :=
  PDict [("account", PDict [("address", PStr "")]); ("address", PStr "EQtop")].

(** * Properties *)

(** ** The order on strings *)

Lemma string_compare_refl (s : string) : String.compare s s = Eq.
Proof.
  induction s as [|c s IH]; simpl; [done|].
  unfold Ascii.compare. by rewrite N.compare_refl.
Qed.

Lemma string_compare_lt_trans (a b c : string) :
  String.compare a b = Lt -> String.compare b c = Lt -> String.compare a c = Lt.
Proof.
  revert b c. induction a as [|x a IH]; intros [|y b] [|z c]; simpl; try done.
  destruct (Ascii.compare x y) eqn:Hxy; try done.
  - apply Ascii.compare_eq_iff in Hxy as ->.
    destruct (Ascii.compare y z); try done. apply IH.
  - intros _. destruct (Ascii.compare y z) eqn:Hyz; try done.
    + apply Ascii.compare_eq_iff in Hyz as <-. by rewrite Hxy.
    + intros _. unfold Ascii.compare in *.
      rewrite N.compare_lt_iff in Hxy, Hyz.
      assert (N_of_ascii x < N_of_ascii z)%N as Hxz by lia.
      apply N.compare_lt_iff in Hxz. by rewrite Hxz.
Qed.

Lemma string_ltb_false_leb (a b : string) :
  String.ltb a b = false <-> String.leb b a = true.
Proof.
  unfold String.ltb, String.leb. rewrite (String.compare_antisym b a).
  destruct (String.compare a b); simpl; split; done.
Qed.

Lemma string_ltb_leb (a b : string) : String.ltb a b = true -> String.leb a b = true.
Proof.
  unfold String.ltb, String.leb. by destruct (String.compare a b).
Qed.

Lemma string_leb_trans (a b c : string) :
  String.leb a b = true -> String.leb b c = true -> String.leb a c = true.
Proof.
  unfold String.leb.
  destruct (String.compare a b) eqn:Hab; try done; intros _.
  - apply String.compare_eq_iff in Hab as ->. done.
  - destruct (String.compare b c) eqn:Hbc; try done; intros _.
    + apply String.compare_eq_iff in Hbc as <-. by rewrite Hab.
    + by rewrite (string_compare_lt_trans a b c).
Qed.

(** ** Leaderboard *)

Lemma tuple_ltb_false (x y : string * Z) :
  tuple_ltb (sort_key y) (sort_key x) = false <-> precedes x y.
Proof.
  unfold tuple_ltb, sort_key, precedes; simpl.
  rewrite orb_false_iff, andb_false_iff, Z.ltb_ge, Z.eqb_neq, string_ltb_false_leb.
  split.
  - intros [? [?|?]]; [left; lia|].
    destruct (decide (x.2 = y.2)); [right; done|left; lia].
  - intros [?|[? ?]]; (split; [lia|]); [left; lia|by right].
Qed.

Lemma tuple_ltb_true (x y : string * Z) :
  tuple_ltb (sort_key y) (sort_key x) = true -> precedes y x.
Proof.
  unfold tuple_ltb, sort_key, precedes; simpl.
  rewrite orb_true_iff, andb_true_iff, Z.ltb_lt, Z.eqb_eq.
  intros [?|[? ?%string_ltb_leb]]; [left; lia|right; split; [lia|done]].
Qed.

Lemma precedes_trans (a b c : string * Z) :
  precedes a b -> precedes b c -> precedes a c.
Proof.
  unfold precedes. intros [?|[? ?]] [?|[? ?]]; try (left; lia).
  right. split; [lia|]. by apply string_leb_trans with b.1.
Qed.

Lemma insert_sorted_perm (x : string * Z) (l : list (string * Z)) :
  insert_sorted x l ≡ₚ x :: l.
Proof.
  induction l as [|y l IH]; simpl; [done|].
  destruct (tuple_ltb _ _); [|done].
  rewrite IH. apply perm_swap.
Qed.

Lemma sorted_perm (l : list (string * Z)) : sorted l ≡ₚ l.
Proof.
  induction l as [|x l IH]; simpl; [done|].
  by rewrite insert_sorted_perm, IH.
Qed.

Lemma insert_sorted_ordered (x : string * Z) (l : list (string * Z)) :
  StronglySorted precedes l -> StronglySorted precedes (insert_sorted x l).
Proof.
  induction 1 as [|y l Hl IH Hy]; simpl.
  - repeat constructor.
  - destruct (tuple_ltb _ _) eqn:Hlt.
    + constructor; [done|].
      rewrite insert_sorted_perm. constructor; [|done].
      by apply tuple_ltb_true.
    + apply tuple_ltb_false in Hlt.
      constructor; [by constructor|].
      constructor; [done|].
      eapply Forall_impl; [exact Hy|].
      intros z Hz. by apply precedes_trans with y.
Qed.

Lemma sorted_ordered (l : list (string * Z)) : StronglySorted precedes (sorted l).
Proof.
  induction l as [|x l IH]; simpl; [constructor|].
  by apply insert_sorted_ordered.
Qed.

Lemma rank_rows_rows (r : Z) (rows : list (string * Z)) :
  map row_of (rank_rows r rows) = rows.
Proof.
  revert r. induction rows as [|[p pts] rows IH]; intros r; simpl; [done|].
  by rewrite IH.
Qed.

Lemma rank_rows_rank (r : Z) (rows : list (string * Z)) (i : nat) (e : entry) :
  rank_rows r rows !! i = Some e -> rank e = r + Z.of_nat i.
Proof.
  revert r i. induction rows as [|[p pts] rows IH]; intros r i; simpl; [done|].
  destruct i as [|i]; simpl.
  - intros [= <-]. simpl. lia.
  - intros Hi. rewrite (IH _ _ Hi). lia.
Qed.

(** C7. For every score record, [get_leaderboard] returns the records of
    the store (each once), ordered by score descending with equal scores
    ordered by player identifier ascending, and numbers the rows 1, 2, 3,
    ... in that order, whether or not neighbouring scores are equal; the
    scores a:10, b:20, c:20 give b (rank 1), c (rank 2), a (rank 3). *)
Theorem C7_leaderboard_sorted_and_ranked (w : world) :
  map row_of (get_leaderboard w) ≡ₚ load_scores w /\
  StronglySorted precedes (map row_of (get_leaderboard w)) /\
  (forall (i : nat) (e : entry),
      get_leaderboard w !! i = Some e -> rank e = Z.of_nat i + 1) /\
  (forall dm : disk,
      get_leaderboard (World (Holds [("a", 10); ("b", 20); ("c", 20)]) dm) =
      [Entry "b" 20 1; Entry "c" 20 2; Entry "a" 10 3]).
Proof.
  unfold get_leaderboard. rewrite rank_rows_rows. repeat split.
  - apply sorted_perm.
  - apply sorted_ordered.
  - intros i e Hi. apply rank_rows_rank in Hi. lia.
Qed.

(** C9. Whatever the state of the score file, a file that is missing or
    whose content cannot be parsed makes [load_scores] return the empty
    mapping, and [get_leaderboard] then returns the empty list. *)
Theorem C9_load_fails_soft (w : world) :
  scores_file w = Missing \/ scores_file w = Corrupt ->
  (exists e, read_scores_file w = raise e) /\
  load_scores w = [] /\
  get_leaderboard w = [].
Proof.
  unfold get_leaderboard, load_scores, read_scores_file.
  intros [-> | ->]; (split; [by eexists|done]).
Qed.

Lemma C9_load_fails_soft_witness :
  (exists e, read_scores_file (World Missing Writable) = raise e) /\
  load_scores (World Missing Writable) = [] /\
  get_leaderboard (World Missing Writable) = [].
Proof. apply (C9_load_fails_soft (World Missing Writable)). left. reflexivity. Defined.

(** ** Question service *)

(** One step of the sampling loop: taking [pool[j]] and moving the last
    live item into its place leaves the other live items. *)
Lemma sample_step_perm {A : Type} (pool : list A) (m j : nat) (x y : A) :
  (j < S m)%nat ->
  pool !! j = Some x ->
  pool !! m = Some y ->
  x :: take m (<[j := y]> pool) ≡ₚ take (S m) pool.
Proof.
  intros Hj Hx Hy. rewrite (take_S_r pool m y Hy).
  destruct (decide (j = m)) as [-> | Hne].
  - assert (x = y) as -> by congruence.
    rewrite list_insert_id by done. apply Permutation_cons_append.
  - assert (j < m)%nat as Hlt by lia.
    rewrite take_insert_lt by done.
    assert (take m pool !! j = Some x) as Ht by (by rewrite lookup_take_lt).
    rewrite insert_take_drop by (by eapply lookup_lt_Some).
    rewrite <- (take_drop_middle (take m pool) j x Ht) at 3.
    rewrite <- !Permutation_middle, app_nil_r. apply perm_swap.
Qed.

Lemma sample_loop_spec {A : Type} (rnd : nat -> nat) (n k : nat) :
  forall (pool : list A) (i : nat),
    length pool = n -> (i + k <= n)%nat ->
    exists r rest,
      sample_loop rnd n pool i k = ok r /\ length r = k /\
      (r ++ rest)%list ≡ₚ take (n - i) pool.
Proof.
  induction k as [|k IH]; intros pool i Hlen Hik; simpl.
  - exists [], (take (n - i) pool). done.
  - assert (n - i = S (n - i - 1))%nat as Hm by lia.
    assert (rnd i mod (n - i) < S (n - i - 1))%nat as Hj
      by (rewrite <- Hm; apply Nat.mod_upper_bound; lia).
    destruct (lookup_lt_is_Some_2 pool (rnd i mod (n - i))) as [x Hx]; [lia|].
    destruct (lookup_lt_is_Some_2 pool (n - i - 1)) as [y Hy]; [lia|].
    rewrite Hx, Hy.
    destruct (IH (<[(rnd i mod (n - i))%nat := y]> pool) (S i))
      as (r & rest & -> & Hr & Hp).
    { by rewrite length_insert. }
    { lia. }
    exists (x :: r), rest. simpl. split; [done|]. split; [by rewrite Hr|].
    rewrite Hp. replace (n - S i)%nat with (n - i - 1)%nat by lia.
    replace (take (n - i) pool) with (take (S (n - i - 1)) pool)
      by (f_equal; lia).
    by apply sample_step_perm.
Qed.

(** [sample] returns [k] items at distinct positions of the population. *)
Lemma sample_spec {A : Type} (rnd : nat -> nat) (population : list A) (k : nat) :
  (k <= length population)%nat ->
  exists r rest,
    sample rnd population k = ok r /\ length r = k /\
    (r ++ rest)%list ≡ₚ population.
Proof.
  intros Hk. unfold sample.
  destruct (Nat.ltb_spec (length population) k) as [?|_]; [lia|].
  destruct (sample_loop_spec rnd (length population) k population 0)
    as (r & rest & Hr & Hlen & Hp); [done|lia|].
  exists r, rest. split; [done|]. split; [done|].
  rewrite Hp, Nat.sub_0_r. by rewrite firstn_all.
Qed.

Lemma catalog_pool_cases (category : string) (pool : list question) :
  default general_questions (assoc category CATEGORIES) = pool ->
  pool = general_questions \/ pool = football_questions \/ pool = crypto_questions.
Proof.
  unfold assoc, CATEGORIES. simpl.
  destruct (String.eqb category "general"); [intros <-; auto|].
  destruct (String.eqb category "football"); [intros <-; auto|].
  destruct (String.eqb category "crypto"); intros <-; auto.
Qed.



Example get_questions_mixed_case (rnd : nat -> nat) :
  get_questions (Some "FootBall") rnd = sample rnd football_questions 5.
Proof. reflexivity. Qed.

Example get_questions_unknown (rnd : nat -> nat) :
  get_questions (Some "history") rnd = get_questions None rnd.
Proof. reflexivity. Qed.

Example get_questions_first_draws :
  get_questions (Some "crypto") (fun _ => 0%nat) =
  ok (map (fun i => default (Question "" [] 0) (crypto_questions !! i))
          [0; 4; 3; 2; 1]%nat).
Proof. reflexivity. Qed.

(** ** Dicts with string keys *)

Lemma assoc_None_keys {A : Type} (k : string) (d : list (string * A)) :
  assoc k d = None <-> k ∉ d.*1.
Proof.
  unfold assoc. induction d as [|[k' v] d IH]; simpl.
  - split; [intros _; apply not_elem_of_nil|done].
  - rewrite not_elem_of_cons. destruct (String.eqb_spec k k') as [->|Hne].
    + split; [done|]. intros [? _]. done.
    + rewrite IH. tauto.
Qed.

Lemma dict_set_new {A : Type} (k : string) (v : A) (d : list (string * A)) :
  k ∉ d.*1 -> dict_set String.eqb k v d = (d ++ [(k, v)])%list.
Proof.
  induction d as [|[k' v'] d IH]; simpl; [done|].
  rewrite not_elem_of_cons. intros [Hne Hd].
  destruct (String.eqb_spec k k'); [done|]. by rewrite IH.
Qed.

Lemma dict_set_keys {A : Type} (k : string) (v : A) (d : list (string * A)) :
  k ∈ d.*1 -> (dict_set String.eqb k v d).*1 = d.*1.
Proof.
  induction d as [|[k' v'] d IH]; [intros Hin; by apply elem_of_nil in Hin|].
  cbn [dict_set]. destruct (String.eqb_spec k k') as [->|Hne]; [done|].
  rewrite !fmap_cons. cbn [fst]. rewrite elem_of_cons.
  intros [?|Hin]; [done|]. f_equal. by apply IH.
Qed.

Lemma dict_set_NoDup {A : Type} (k : string) (v : A) (d : list (string * A)) :
  NoDup d.*1 -> NoDup (dict_set String.eqb k v d).*1.
Proof.
  intros Hd. destruct (decide (k ∈ d.*1)) as [Hin|Hnin].
  - by rewrite dict_set_keys.
  - rewrite dict_set_new, fmap_app by done.
    apply NoDup_app. split; [done|]. split; [|apply NoDup_singleton].
    intros x Hx ->%list_elem_of_singleton. done.
Qed.

Lemma assoc_dict_set_eq {A : Type} (k : string) (v : A) (d : list (string * A)) :
  assoc k (dict_set String.eqb k v d) = Some v.
Proof.
  unfold assoc. induction d as [|[k' v'] d IH]; simpl.
  - by rewrite String.eqb_refl.
  - destruct (String.eqb k k') eqn:Hk; simpl; by rewrite Hk.
Qed.



(** ** The dict in memory and the file *)

Lemma dict_get_as_keys (s : string) (d : list (string * Z)) :
  dict_get key_eqb (KStr s) (as_keys d) = assoc s d.
Proof.
  unfold assoc. induction d as [|[k v] d IH]; simpl; [done|].
  by rewrite IH.
Qed.

Lemma dict_set_as_keys (s : string) (v : Z) (d : list (string * Z)) :
  dict_set key_eqb (KStr s) v (as_keys d) = as_keys (dict_set String.eqb s v d).
Proof.
  induction d as [|[k v'] d IH]; simpl; [done|].
  destruct (String.eqb s k); simpl; [done|by rewrite IH].
Qed.



Section SettlementProperties.
Context {builtins : Builtins}.

Lemma json_reload_from (d acc : list (string * Z)) :
  NoDup (acc ++ d).*1 ->
  fold_left (fun doc item => dict_set String.eqb (json_key item.1) item.2 doc)
            (as_keys d) acc = (acc ++ d)%list.
Proof.
  revert acc. induction d as [|[k v] d IH]; intros acc Hnd; simpl.
  - by rewrite app_nil_r.
  - rewrite dict_set_new.
    + rewrite IH; rewrite <- app_assoc; done.
    + rewrite fmap_app in Hnd. apply NoDup_app in Hnd as (_ & Hdisj & _).
      intros Hin. apply (Hdisj k Hin). simpl. apply elem_of_cons. by left.
Qed.

(** Writing a dict read from the file and reading it back gives the
    dict. *)
Lemma json_reload_as_keys (d : list (string * Z)) :
  NoDup d.*1 -> json_reload (as_keys d) = d.
Proof. intros Hnd. unfold json_reload. by rewrite json_reload_from. Qed.


Lemma receive_result_accepted (body : option pyval) (w : world) (req : request) :
  read_request body = ok req ->
  (receive_result body w).1.1 = Ok200 (outcome req) /\
  (receive_result body w).1.2 =
    (update_scores (derive_player_id (req_wallet req)) (req_user_score req) w).2.
Proof.
  intros Hreq. unfold receive_result, outcome. rewrite Hreq.
  unfold ok. cbv beta iota zeta.
  destruct (settle _ _) as [c n].
  destruct (update_scores _ _ _) as [updated w']. done.
Qed.

Lemma receive_result_rejected (body : option pyval) (w : world) (e : exn) :
  read_request body = raise e ->
  receive_result body w = (Err500 e, w, []).
Proof. intros Hreq. unfold receive_result. by rewrite Hreq. Qed.



(** Every pair of integers is the pair of scores of some request. *)
Lemma read_request_scores (u o : Z) :
  read_request
    (Some (PDict [("score", PDict [("user", PInt u); ("opponent", PInt o)])])) =
  ok (Request PNone u o 1%float (PStr "general")).
Proof. reflexivity. Qed.





(** *** The player's identifier *)

Lemma usable_present_truthy (field : option pyval) :
  present_truthy field -> usable field = field.
Proof.
  destruct field as [v|]; [|done]. intros Hv. simpl. by rewrite (Hv v).
Qed.

(** C4 (amended). For every wallet value, the identifier is the first of
    the nested account address, the top-level "address" and the
    top-level "publicKey" that is present with a truthy value (not None,
    false, zero or empty), and the rendering of the whole value when
    there is none; when no present candidate is falsy this is the first
    candidate that is present. *)
Theorem C4_player_id_first_truthy (wallet : pyval) :
  derive_player_id wallet = truthy_player_id wallet /\
  (present_truthy (nested_address wallet) ->
   present_truthy (top_field "address" wallet) ->
   present_truthy (top_field "publicKey" wallet) ->
   derive_player_id wallet = spec_player_id wallet).
Proof.
  assert (derive_player_id wallet = truthy_player_id wallet) as Heq.
  { unfold derive_player_id, truthy_player_id, first_candidate, usable,
      nested_address, top_field, py_or.
    destruct wallet as [| | | | | |fields]; try done.
    destruct (assoc "account" fields) as [[| | | | | |account]|];
      try destruct (assoc "address" account) as [n|];
      destruct (assoc "address" fields) as [a|];
      destruct (assoc "publicKey" fields) as [p|];
      try destruct (truthy n) eqn:Hn;
      try destruct (truthy a) eqn:Ha;
      try destruct (truthy p) eqn:Hp;
      simpl; rewrite ?Hn, ?Ha, ?Hp; simpl; rewrite ?Hn, ?Ha, ?Hp; done. }
  split; [done|]. intros Hn Ha Hp. rewrite Heq.
  unfold truthy_player_id, spec_player_id, first_candidate.
  by rewrite !usable_present_truthy.
Qed.

(** *** Coercion of the request *)


(** Fields of a wrong type: the handler raises. *)
Lemma read_request_wrong_types :
  read_request (Some (PDict [("score", PInt 5)])) = raise AttributeError /\
  read_request (Some (PDict [("score", PDict [("user", PNone)])])) = raise TypeError /\
  read_request (Some (PDict [("stake", PList [])])) = raise TypeError /\
  read_request (Some (PList [PInt 1])) = raise AttributeError.
Proof. done. Qed.

(** *** The score update *)


(** *** Failures of the score file *)


Lemma update_scores_open_fails (s : string) (user_score : Z) (w : world) :
  disk_mode w = OpenFails ->
  update_scores (PStr s) user_score w = (raise OSError, w).
Proof.
  intros Hdisk. unfold update_scores, dict_mem. simpl.
  rewrite dict_get_as_keys.
  destruct (assoc s (load_scores w)) as [total|] eqn:Hs; simpl.
  - rewrite dict_get_as_keys, Hs. unfold save_scores. by rewrite Hdisk.
  - rewrite dict_set_as_keys, dict_get_as_keys, assoc_dict_set_eq.
    unfold save_scores. by rewrite Hdisk.
Qed.

Lemma update_scores_dump_fails (s : string) (user_score : Z) (w : world) :
  disk_mode w = DumpFails ->
  update_scores (PStr s) user_score w = (raise OSError, World Corrupt DumpFails).
Proof.
  intros Hdisk. unfold update_scores, dict_mem. simpl.
  rewrite dict_get_as_keys.
  destruct (assoc s (load_scores w)) as [total|] eqn:Hs; simpl.
  - rewrite dict_get_as_keys, Hs. unfold save_scores. by rewrite Hdisk.
  - rewrite dict_set_as_keys, dict_get_as_keys, assoc_dict_set_eq.
    unfold save_scores. by rewrite Hdisk.
Qed.

(** The names of the dict a write leaves in the file are unique, for
    every identifier: the file holds a JSON object as [json.load] reads
    it. *)
Lemma json_reload_NoDup (scores : list (pykey * Z)) : NoDup (json_reload scores).*1.
Proof.
  unfold json_reload.
  assert (forall acc : list (string * Z), NoDup acc.*1 ->
            NoDup (fold_left
                     (fun doc item => dict_set String.eqb (json_key item.1) item.2 doc)
                     scores acc).*1) as Hfold.
  { induction scores as [|[k v] scores IH]; intros acc Hacc; simpl; [done|].
    apply IH. by apply dict_set_NoDup. }
  apply Hfold. constructor.
Qed.

Lemma receive_result_names_unique (body : option pyval) (w : world) :
  NoDup (load_scores w).*1 ->
  NoDup (load_scores (receive_result body w).1.2).*1.
Proof.
  intros Hnd. destruct (read_request body) as [e|req] eqn:Hreq.
  - by rewrite (receive_result_rejected body w e).
  - destruct (receive_result_accepted body w req Hreq) as [_ ->].
    unfold update_scores. destruct (hash_key _) as [e|key]; [done|].
    destruct (dict_get key_eqb key _) as [total|]; [|done].
    unfold save_scores. destruct (disk_mode w); simpl; try done.
    + apply json_reload_NoDup.
    + constructor.
Qed.



(** The answer does not depend on the world, for any body at all. *)
Lemma receive_result_any_world (body : option pyval) (w1 w2 : world) :
  (receive_result body w1).1.1 = (receive_result body w2).1.1.
Proof.
  destruct (read_request body) as [e|req] eqn:Hreq.
  - by rewrite !(receive_result_rejected body _ e).
  - destruct (receive_result_accepted body w1 req Hreq) as [-> _].
    by destruct (receive_result_accepted body w2 req Hreq) as [-> _].
Qed.

End SettlementProperties.

(** ** The theorems at concrete requests *)






(** An identifier that is not a string is written under its JSON name
    and is never found again among the names read back: each request
    starts from 0 and replaces what the file held under that name. *)
Lemma int_identifier_overwrites :
  (receive_result (builtins := plain_builtins)
     (submission (wallet_of (PInt 5)) 3 0)
     (World (Holds [("5", 10)]) Writable)).1.2 =
    World (Holds [("5", 3)]) Writable /\
  (receive_result (builtins := plain_builtins)
     (submission (wallet_of (PInt 5)) 5 0)
     (receive_result (builtins := plain_builtins)
        (submission (wallet_of (PInt 5)) 3 0) fresh).1.2).1.2 =
    World (Holds [("5", 5)]) Writable.
Proof. split; vm_compute; reflexivity. Qed.

(** A nested address that is empty is passed over. *)
Lemma C4_empty_address_passed_over :
  nested_address wallet_empty_nested = Some (PStr "") /\
  spec_player_id (builtins := plain_builtins) wallet_empty_nested = PStr "" /\
  derive_player_id (builtins := plain_builtins) wallet_empty_nested = PStr "EQtop".
Proof. repeat split. Qed.





(** ** Conversions at concrete values *)

Example int_of_float_truncates : int_of_float (-2.75)%float = ok (-2).
Proof. reflexivity. Qed.

Example float_of_int_exact : float_of_int 3 = ok 3%float.
Proof. reflexivity. Qed.

Example float_of_int_overflows : float_of_int (2 ^ 1024) = raise OverflowError.
Proof. vm_compute. reflexivity. Qed.

(** * Further properties of the handlers *)

(** ** Vocabulary *)

(** A question a client can show: four options, and the index of the
    correct one among them. *)
Definition well_formed (q : question) : Prop :=
  length (q_options q) = 4%nat /\ 0 <= q_correctIndex q < 4.


Definition is_dict (v : pyval) : bool :=
  match v with PDict _ => true | _ => false end.

(** ** Question service *)

(** Sampling as many items as the population has returns all of them. *)
Lemma sample_whole_population {A : Type} (rnd : nat -> nat) (population : list A) :
  exists r, sample rnd population (length population) = ok r /\ r ≡ₚ population.
Proof.
  destruct (sample_spec rnd population (length population))
    as (r & rest & Hr & Hlen & Hperm); [lia|].
  exists r. split; [done|].
  assert (rest = []) as ->.
  { apply nil_length_inv. apply Permutation_length in Hperm.
    rewrite length_app in Hperm. lia. }
  by rewrite app_nil_r in Hperm.
Qed.

Lemma catalog_pool_length (pool : list question) :
  pool = general_questions \/ pool = football_questions \/ pool = crypto_questions ->
  length pool = 5%nat.
Proof. by intros [-> | [-> | ->]]. Qed.

Lemma catalog_pool_well_formed (pool : list question) :
  pool = general_questions \/ pool = football_questions \/ pool = crypto_questions ->
  Forall well_formed pool.
Proof.
  intros [-> | [-> | ->]]; repeat constructor; simpl; lia.
Qed.

(** The handler with the lookup of "general" carried out. *)
Lemma get_questions_sample (category_arg : option string) (rnd : nat -> nat) :
  get_questions category_arg rnd =
  let pool := default general_questions
                (assoc (lower (default "general" category_arg)) CATEGORIES) in
  sample rnd pool (Nat.min 5 (length pool)).
Proof. reflexivity. Qed.

(** X1. Every pool of the catalog has five questions, so for every
    category argument and every random source the answer holds each
    question of the resolved pool exactly once: only the order is
    random. *)
Theorem get_questions_returns_whole_pool
    (category_arg : option string) (rnd : nat -> nat) :
  exists qs : list question,
    get_questions category_arg rnd = ok qs /\
    length qs = 5%nat /\
    qs ≡ₚ default general_questions
           (assoc (lower (default "general" category_arg)) CATEGORIES).
Proof.
  set (pool := default general_questions
                 (assoc (lower (default "general" category_arg)) CATEGORIES)).
  assert (length pool = 5%nat) as Hlen
    by (by eapply catalog_pool_length, catalog_pool_cases).
  destruct (sample_whole_population rnd pool) as (qs & Hqs & Hperm).
  exists qs. split; [|split; [|done]].
  - rewrite get_questions_sample. cbv zeta. fold pool.
    rewrite Hlen in *. exact Hqs.
  - by rewrite Hperm.
Qed.

(** X2. Every question of every answer has four options and a correct
    index that points at one of them. *)
Theorem get_questions_well_formed
    (category_arg : option string) (rnd : nat -> nat) (qs : list question) :
  get_questions category_arg rnd = ok qs -> Forall well_formed qs.
Proof.
  set (pool := default general_questions
                 (assoc (lower (default "general" category_arg)) CATEGORIES)).
  assert (pool = general_questions \/ pool = football_questions \/
          pool = crypto_questions) as Hpool by (by eapply catalog_pool_cases).
  destruct (sample_spec rnd pool (Nat.min 5 (length pool)))
    as (r & rest & Hr & _ & Hperm); [lia|].
  rewrite get_questions_sample. cbv zeta. fold pool.
  rewrite Hr. intros [= <-].
  apply catalog_pool_well_formed in Hpool. rewrite <- Hperm in Hpool.
  by apply Forall_app in Hpool as [? _].
Qed.

Lemma get_questions_well_formed_witness :
  Forall well_formed
    (map (fun i => default (Question "" [] 0) (crypto_questions !! i))
         [0; 4; 3; 2; 1]%nat).
Proof.
  apply (get_questions_well_formed (Some "crypto") (fun _ => 0%nat)).
  reflexivity.
Defined.

Lemma lower_byte_idempotent (c : ascii) : lower_byte (lower_byte c) = lower_byte c.
Proof.
  destruct c as [[] [] [] [] [] [] [] []]; reflexivity.
Qed.

Lemma lower_idempotent (s : string) : lower (lower s) = lower s.
Proof.
  induction s as [|c s IH]; simpl; [done|].
  by rewrite lower_byte_idempotent, IH.
Qed.

(** The category argument is read without regard to the case of its
    letters: asking for the lowered name gives the answer of the name
    itself. *)
Lemma get_questions_ignores_case (category : string) (rnd : nat -> nat) :
  get_questions (Some (lower category)) rnd = get_questions (Some category) rnd.
Proof.
  rewrite !get_questions_sample. simpl default. by rewrite lower_idempotent.
Qed.


(** ** Leaderboard *)

Lemma precedes_antisym (a b : string * Z) : precedes a b -> precedes b a -> a = b.
Proof.
  destruct a as [p x], b as [q y]. unfold precedes. simpl.
  intros [?|[-> Hpq]] [?|[? Hqp]]; try lia.
  by rewrite (String.leb_antisym p q Hpq Hqp).
Qed.

(** Two ordered lists with the same rows are the same list. *)
Lemma ordered_rows_unique (l1 l2 : list (string * Z)) :
  StronglySorted precedes l1 -> StronglySorted precedes l2 -> l1 ≡ₚ l2 -> l1 = l2.
Proof.
  intros H1. revert l2. induction H1 as [|x l1 Hl1 IH Hx]; intros l2 H2 Hperm.
  - by apply Permutation_nil_l in Hperm.
  - destruct H2 as [|y l2 Hl2 Hy].
    { by apply Permutation_nil_r in Hperm. }
    assert (x = y) as <-.
    { assert (x ∈ y :: l2) as Hxin by (rewrite <- Hperm; apply elem_of_cons; by left).
      assert (y ∈ x :: l1) as Hyin by (rewrite Hperm; apply elem_of_cons; by left).
      apply elem_of_cons in Hxin as [?|Hxin]; [done|].
      apply elem_of_cons in Hyin as [?|Hyin]; [done|].
      rewrite Forall_forall in Hx, Hy.
      apply precedes_antisym; [by apply Hx|by apply Hy]. }
    f_equal. apply IH; [done|]. by apply Permutation_cons_inv in Hperm.
Qed.

(** X4. The leaderboard does not depend on the order in which the store
    holds its records: two stores with the same records give the same
    rows with the same ranks. *)
Theorem leaderboard_ignores_store_order (w1 w2 : world) :
  load_scores w1 ≡ₚ load_scores w2 -> get_leaderboard w1 = get_leaderboard w2.
Proof.
  intros Hperm. unfold get_leaderboard. f_equal.
  apply ordered_rows_unique; [apply sorted_ordered..|].
  by rewrite !sorted_perm.
Qed.

Lemma leaderboard_ignores_store_order_witness :
  get_leaderboard (World (Holds [("a", 10); ("b", 20)]) Writable) =
  get_leaderboard (World (Holds [("b", 20); ("a", 10)]) OpenFails).
Proof.
  apply (leaderboard_ignores_store_order
           (World (Holds [("a", 10); ("b", 20)]) Writable)
           (World (Holds [("b", 20); ("a", 10)]) OpenFails)).
  apply perm_swap.
Defined.

Lemma ordered_lookup (l : list (string * Z)) (i j : nat) (a b : string * Z) :
  StronglySorted precedes l -> (i < j)%nat ->
  l !! i = Some a -> l !! j = Some b -> precedes a b.
Proof.
  intros Hl. revert i j. induction Hl as [|x l Hl IH Hx]; intros i j Hij Hi Hj.
  - done.
  - destruct j as [|j]; [lia|]. simpl in Hj. destruct i as [|i]; simpl in Hi.
    + injection Hi as <-. rewrite Forall_forall in Hx.
      apply Hx. by eapply list_elem_of_lookup_2.
    + apply (IH i j); [lia|done..].
Qed.

Lemma leaderboard_lookup (w : world) (i : nat) (e : entry) :
  get_leaderboard w !! i = Some e ->
  sorted (load_scores w) !! i = Some (row_of e) /\ rank e = Z.of_nat i + 1.
Proof.
  intros Hi. split.
  - rewrite <- (rank_rows_rows 1 (sorted (load_scores w))).
    fold (get_leaderboard w). rewrite list_lookup_fmap, Hi. done.
  - apply rank_rows_rank in Hi. lia.
Qed.

(** X5. On the leaderboard a higher score has a smaller rank, and of two
    rows with the same score the one whose identifier comes first has the
    smaller rank. *)
Theorem leaderboard_rank_follows_score (w : world) (e1 e2 : entry) :
  e1 ∈ get_leaderboard w ->
  e2 ∈ get_leaderboard w ->
  (score e2 < score e1 \/
   (score e1 = score e2 /\ String.ltb (player e1) (player e2) = true)) ->
  rank e1 < rank e2.
Proof.
  intros [i Hi]%list_elem_of_lookup_1 [j Hj]%list_elem_of_lookup_1 Hbetter.
  apply leaderboard_lookup in Hi as [Hi ->], Hj as [Hj ->].
  destruct (decide (i < j)%nat) as [?|Hge]; [lia|]. exfalso.
  assert (precedes (row_of e2) (row_of e1)) as Hprec.
  { destruct (decide (i = j)) as [->|Hne].
    - assert (row_of e1 = row_of e2) as -> by congruence.
      right. split; [done|]. unfold String.leb. by rewrite string_compare_refl.
    - eapply (ordered_lookup _ j i); [apply sorted_ordered|lia|done..]. }
  unfold precedes, row_of in Hprec. simpl in Hprec.
  destruct Hbetter as [?|[Heq Hlt]], Hprec as [?|[? Hle]]; try lia.
  apply string_ltb_false_leb in Hle. congruence.
Qed.

Lemma leaderboard_rank_follows_score_witness :
  rank (Entry "b" 20 1) < rank (Entry "a" 10 3).
Proof.
  apply (leaderboard_rank_follows_score
           (World (Holds [("a", 10); ("b", 20); ("c", 20)]) Writable)
           (Entry "b" 20 1) (Entry "a" 10 3)).
  - by apply (list_elem_of_lookup_2 _ 0%nat).
  - by apply (list_elem_of_lookup_2 _ 2%nat).
  - left. simpl. lia.
Defined.

(** ** Settlement and the store *)

Lemma key_eqb_refl (k : pykey) : key_eqb k k = true.
Proof.
  destruct k as [|b|z|f|s]; simpl.
  - done.
  - by destruct b.
  - apply Z.eqb_refl.
  - unfold is_nan. by destruct (PrimFloat.eqb f f).
  - apply String.eqb_refl.
Qed.

Lemma dict_get_set_key (k : pykey) (v : Z) (d : list (pykey * Z)) :
  dict_get key_eqb k (dict_set key_eqb k v d) = Some v.
Proof.
  induction d as [|[k' v'] d IH]; simpl.
  - by rewrite key_eqb_refl.
  - destruct (key_eqb k k') eqn:Hk; simpl; by rewrite Hk.
Qed.





Section StoreProperties.
Context {builtins : Builtins}.




(** An identifier that can be a key always reaches the write: the update
    raises no [KeyError]. *)
Lemma update_scores_reaches_save (player_id : pyval) (key : pykey)
    (user_score : Z) (w : world) :
  hash_key player_id = ok key ->
  exists scores, update_scores player_id user_score w = save_scores scores w.
Proof.
  intros Hk. unfold update_scores. rewrite Hk. unfold ok, dict_mem.
  destruct (dict_get key_eqb key (as_keys (load_scores w))) as [total|] eqn:Hget;
    simpl.
  - rewrite Hget. by eexists.
  - rewrite dict_get_set_key. by eexists.
Qed.







(** X9. On a disk that refuses to open the file for writing, no request
    changes the world, whatever its body. *)
Theorem refused_open_keeps_store (body : option pyval) (w : world) :
  disk_mode w = OpenFails -> (receive_result body w).1.2 = w.
Proof.
  intros Hdisk. destruct (read_request body) as [e|req] eqn:Hreq.
  - by rewrite (receive_result_rejected body w e).
  - destruct (receive_result_accepted body w req Hreq) as [_ ->].
    destruct (hash_key (derive_player_id (req_wallet req))) as [e|key] eqn:Hk.
    + unfold update_scores. by rewrite Hk.
    + destruct (update_scores_reaches_save _ key (req_user_score req) w Hk)
        as [scores ->].
      unfold save_scores. by rewrite Hdisk.
Qed.





End StoreProperties.

(** ** Requests and answers *)

(** A candidate field that is missing or holds a string. *)
Definition string_field (field : option pyval) : Prop :=
  forall v, field = Some v -> exists s, v = PStr s.


Section RequestProperties.
Context {builtins : Builtins}.

Lemma py_int_not_attribute_error (v : pyval) : py_int v <> raise AttributeError.
Proof.
  destruct v; simpl; try done.
  - unfold int_of_float. by destruct (Prim2SF f).
  - by destruct (int_of_str s).
Qed.

Lemma py_float_not_attribute_error (v : pyval) : py_float v <> raise AttributeError.
Proof.
  destruct v; simpl; try done.
  - unfold float_of_int. by destruct (is_infinity _).
  - by destruct (float_of_str s).
Qed.

(** Once the body and its score are objects, no [AttributeError] is left
    to raise. *)
Lemma read_fields_not_attribute_error
    (fields score_fields : list (string * pyval)) (wallet : pyval) :
  (let* user_raw := py_get (PDict score_fields) "user" (PInt 0) in
   let* user_score := py_int user_raw in
   let* opp_raw := py_get (PDict score_fields) "opponent" (PInt 0) in
   let* opp_score := py_int opp_raw in
   let* stake_raw := py_get (PDict fields) "stake" (PFloat 1%float) in
   let* stake := py_float stake_raw in
   let* category := py_get (PDict fields) "category" (PStr "general") in
   ok (Request wallet user_score opp_score stake category))
  <> raise AttributeError.
Proof.
  cbn [py_get bind ok].
  destruct (py_int (default (PInt 0) (assoc "user" score_fields))) as [e|u] eqn:Hu.
  { intros [= ->]. by apply py_int_not_attribute_error in Hu. }
  destruct (py_int (default (PInt 0) (assoc "opponent" score_fields))) as [e|o] eqn:Ho.
  { intros [= ->]. by apply py_int_not_attribute_error in Ho. }
  destruct (py_float (default (PFloat 1%float) (assoc "stake" fields))) as [e|st] eqn:Hs.
  { intros [= ->]. by apply py_float_not_attribute_error in Hs. }
  done.
Qed.

Lemma read_request_object (fields : list (string * pyval)) :
  read_request (Some (PDict fields)) = raise AttributeError <->
  exists v, assoc "score" fields = Some v /\ is_dict v = false.
Proof.
  unfold read_request. simpl default.
  replace (py_or (PDict fields) (PDict [])) with (PDict fields)
    by (by destruct fields).
  cbn [py_get bind ok].
  destruct (assoc "score" fields) as [v|]; simpl default.
  - destruct v as [| | | | | |score_fields];
      try (split; [intros _; by eexists|done]).
    split.
    + intros Hraise. by apply read_fields_not_attribute_error in Hraise.
    + by intros (v & [= <-] & ?).
  - split.
    + intros Hraise. by apply read_fields_not_attribute_error in Hraise.
    + by intros (v & ? & ?).
Qed.

Lemma read_request_not_object (v : pyval) :
  truthy v = true -> is_dict v = false ->
  read_request (Some v) = raise AttributeError.
Proof.
  intros Htruthy Hdict. unfold read_request, py_or. simpl default.
  rewrite Htruthy. by destruct v.
Qed.

(** X12. A request is answered with status 500 for an [AttributeError]
    exactly when its body is a truthy value that is not an object, or is
    an object whose "score" is present and is not an object. *)
Theorem attribute_error_iff (body : option pyval) :
  read_request body = raise AttributeError <->
  (exists v, body = Some v /\ truthy v = true /\ is_dict v = false) \/
  (exists fields v,
      body = Some (PDict fields) /\ assoc "score" fields = Some v /\
      is_dict v = false).
Proof.
  destruct body as [v|].
  - destruct (truthy v) eqn:Htruthy.
    + destruct (is_dict v) eqn:Hdict; cycle 1.
      { split; [intros _; left; by exists v|
                intros _; by apply read_request_not_object]. }
      destruct v as [| | | | | |fields]; try done.
      rewrite read_request_object. split.
      * intros (v & ? & ?). right. by exists fields, v.
      * intros [(v & [= <-] & _ & ?)|(fields' & v & [= <-] & ? & ?)];
          [done|by exists v].
    + assert (read_request (Some v) = read_request None) as ->
        by (unfold read_request, py_or; simpl default; by rewrite Htruthy).
      split; [done|].
      intros [(v' & [= <-] & ? & _)|(fields & v' & [= ->] & Hscore & _)];
        [congruence|].
      by destruct fields.
  - split; [done|]. by intros [(v & ? & _)|(fields & v & ? & _)].
Qed.



(** X15. Writing back the dict that was loaded changes nothing a reader
    can see: on a disk that takes the write the file holds the same
    records in the same order, and writing once more leaves the world as
    it is. *)
Theorem save_load_round_trip (w : world) :
  disk_mode w = Writable ->
  NoDup (load_scores w).*1 ->
  (save_scores (as_keys (load_scores w)) w).1 = ok tt /\
  load_scores (save_scores (as_keys (load_scores w)) w).2 = load_scores w /\
  (save_scores (as_keys (load_scores (save_scores (as_keys (load_scores w)) w).2))
     (save_scores (as_keys (load_scores w)) w).2).2 =
  (save_scores (as_keys (load_scores w)) w).2.
Proof.
  intros Hdisk Hnd. unfold save_scores. rewrite Hdisk. simpl.
  rewrite json_reload_as_keys by done. unfold load_scores at 1 3. simpl.
  by rewrite json_reload_as_keys.
Qed.



(** X18. A wallet whose candidate fields, where present, hold strings
    gives an identifier that is a string. *)
Theorem string_fields_give_string_identifier (wallet : pyval) :
  string_field (nested_address wallet) ->
  string_field (top_field "address" wallet) ->
  string_field (top_field "publicKey" wallet) ->
  exists s, derive_player_id wallet = PStr s.
Proof.
  unfold string_field, derive_player_id, nested_address, top_field, py_or.
  intros Hn Ha Hp.
  destruct wallet as [| | | | | |fields]; try (by eexists).
  destruct (assoc "account" fields) as [[| | | | | |account]|];
    try destruct (assoc "address" account) as [n|];
    destruct (assoc "address" fields) as [a|];
    destruct (assoc "publicKey" fields) as [p|];
    try (destruct (Hn n eq_refl) as [? ->]);
    try (destruct (Ha a eq_refl) as [? ->]);
    try (destruct (Hp p eq_refl) as [? ->]);
    simpl;
    repeat match goal with
           | |- context [String.eqb ?x ""] => destruct (String.eqb x ""); simpl
           end;
    by eexists.
Qed.

End RequestProperties.

(** ** The further properties at concrete requests *)

(** A store with two players. *)
Definition two_players : world := World (Holds [("EQ1", 5); ("EQ2", 7)]) Writable.




Lemma refused_open_keeps_store_witness :
  (receive_result (builtins := plain_builtins)
     (submission (wallet_of (PStr "EQ1")) 3 0)
     (World (Holds [("EQ1", 5)]) OpenFails)).1.2 =
  World (Holds [("EQ1", 5)]) OpenFails.
Proof.
  apply (refused_open_keeps_store (builtins := plain_builtins)
           (submission (wallet_of (PStr "EQ1")) 3 0)
           (World (Holds [("EQ1", 5)]) OpenFails)).
  reflexivity.
Defined.





Lemma save_load_round_trip_witness :
  (save_scores (builtins := plain_builtins) (as_keys (load_scores two_players))
     two_players).1 = ok tt /\
  load_scores
    (save_scores (builtins := plain_builtins) (as_keys (load_scores two_players))
       two_players).2 = load_scores two_players /\
  (save_scores (builtins := plain_builtins)
     (as_keys
        (load_scores
           (save_scores (builtins := plain_builtins)
              (as_keys (load_scores two_players)) two_players).2))
     (save_scores (builtins := plain_builtins)
        (as_keys (load_scores two_players)) two_players).2).2 =
  (save_scores (builtins := plain_builtins) (as_keys (load_scores two_players))
     two_players).2.
Proof.
  apply (save_load_round_trip (builtins := plain_builtins) two_players).
  - reflexivity.
  - apply (bool_decide_unpack _). by vm_compute.
Defined.



Lemma string_fields_give_string_identifier_witness :
  exists s, derive_player_id (builtins := plain_builtins)
              (PDict [("account", PDict [("address", PStr "EQ1")]);
                      ("publicKey", PStr "pk")]) = PStr s.
Proof.
  apply (string_fields_give_string_identifier (builtins := plain_builtins)
           (PDict [("account", PDict [("address", PStr "EQ1")]);
                   ("publicKey", PStr "pk")])).
  - intros v [= <-]. by eexists.
  - intros v [=].
  - intros v [= <-]. by eexists.
Defined.
